(** * User profiles from track events: [compute_stats_by_user]

    A shallow embedding of the per-customer summary routine of
    [3_users_profil.ipynb] (cell 24) together with the string helpers it
    calls ([str.split] with a one-character separator and [int] on a
    string), and the properties of the routine that hold or fail on the
    code.  Around it: [make_tracks_kv], which turns a line of
    [tracks.csv] into a keyed event, the loop that writes the rows of
    [live_table.csv], and the word splitting of [1_examples.ipynb].

    Python integers are unbounded, hence [Z].  Strings are modelled as
    byte strings ([string] of [ascii]); the notebook runs on Python 2.7,
    so [int] follows that version (no digit-group underscores).  The
    long-literal suffix that Python 2 tolerates only past [sys.maxint],
    and non-ASCII digits of [unicode] strings, are outside the model. *)

From Stdlib Require Import ZArith List String Ascii Bool Lia Permutation.
Import ListNotations.

Local Open Scope Z_scope.
Local Open Scope list_scope.

(** ** Exceptions and results *)

(** The exceptions of the statements of the routine, tagged by the
    raising statement.  The first two are [ValueError] in Python. *)
Inductive exn : Type :=
| ValueError_unpack            (* d,t = dtime.split(" ") : not two parts *)
| ValueError_int (s : string)  (* int(s) : invalid literal              *)
| IndexError.                  (* xs[0] on an empty list                 *)

Inductive result (A : Type) : Type :=
| Ok (a : A)
| Err (e : exn).
Arguments Ok {A} a.
Arguments Err {A} e.

Definition bind {A B : Type} (r : result A) (k : A -> result B) : result B :=
  match r with
  | Ok a => k a
  | Err e => Err e
  end.

Notation "x <- r ;; k" := (bind r (fun x => k))
  (at level 61, r at next level, right associativity).

(** What one pass through the body of a [for] loop does: fall through to
    the next iteration, leave the function with a value, or raise. *)
Inductive flow (S R : Type) : Type :=
| Next (s : S)
| Return (r : R)
| Raise (e : exn).
Arguments Next {S R} s.
Arguments Return {S R} r.
Arguments Raise {S R} e.

(** [for t in xs: body], threading the local variables. *)
Fixpoint for_each {S R T : Type}
         (body : S -> T -> flow S R) (st : S) (xs : list T) : flow S R :=
  match xs with
  | [] => Next st
  | t :: xs' =>
      match body st t with
      | Next st' => for_each body st' xs'
      | Return r => Return r
      | Raise e => Raise e
      end
  end.

(** A Python value a call of the routine can evaluate to. *)
Inductive value : Type :=
| PyNone
| PyList (v : list Z).

Inductive outcome : Type :=
| Returned (v : value)
| Raised (e : exn).

(** ** Python string helpers *)

Module PyStr.

(** [s.split(sep)] for a one-character [sep]: cut at every occurrence,
    empty pieces kept, so the result is never empty. *)
Fixpoint split (sep : ascii) (s : string) : list string :=
  match s with
  | EmptyString => [EmptyString]
  | String c s' =>
      if Ascii.eqb c sep then EmptyString :: split sep s'
      else match split sep s' with
           | w :: ws => String c w :: ws
           | [] => [String c EmptyString]
           end
  end.

(** C [isspace]: blank, and TAB to CR. *)
Definition isspace (c : ascii) : bool :=
  let n := N_of_ascii c in
  (n =? 32)%N || ((9 <=? n)%N && (n <=? 13)%N).

Definition digit (c : ascii) : option Z :=
  let n := Z.of_N (N_of_ascii c) in
  if (48 <=? n) && (n <=? 57) then Some (n - 48) else None.

Fixpoint lstrip (s : string) : string :=
  match s with
  | String c s' => if isspace c then lstrip s' else s
  | EmptyString => s
  end.

Fixpoint all_space (s : string) : bool :=
  match s with
  | String c s' => isspace c && all_space s'
  | EmptyString => true
  end.

(** Decimal digits, then nothing but white space up to the end. *)
Fixpoint digits (acc : Z) (s : string) : option Z :=
  match s with
  | EmptyString => Some acc
  | String c s' =>
      match digit c with
      | Some d => digits (10 * acc + d) s'
      | None => if all_space s then Some acc else None
      end
  end.

(** At least one digit is required. *)
Definition unsigned (s : string) : option Z :=
  match s with
  | String c _ => match digit c with
                  | Some _ => digits 0 s
                  | None => None
                  end
  | EmptyString => None
  end.

(** [int(s)] in base 10: surrounding white space is skipped, one sign
    is allowed directly before the digits. *)
Definition int (s : string) : result Z :=
  let body := lstrip s in
  let parsed :=
    match body with
    | String "-"%char r => option_map Z.opp (unsigned r)
    | String "+"%char r => unsigned r
    | _ => unsigned body
    end in
  match parsed with
  | Some n => Ok n
  | None => Err (ValueError_int s)
  end.

(** A string between double quotes, as the fields of [tracks.csv] are. *)
Definition quoted (s : string) : string :=
  String (ascii_of_nat 34) (s ++ String (ascii_of_nat 34) EmptyString)%string.

End PyStr.

(** ** The routine *)

(** One track event, [[int(line[2]), line[3], int(line[4]), line[5]]]:
    what [trackid, dtime, mobile, zip = t] unpacks. *)
Record track : Type := Track {
  trackid : Z;
  dtime : string;
  mobile : Z;
  zip : string
}.

(** The local variables of [compute_stats_by_user]. *)
Record locals : Type := Locals {
  mcount : Z;
  morning : Z;
  afternoon : Z;
  evening : Z;
  night : Z;
  tracklist : list Z
}.

(** [mcount = morning = afternoon = evening = night = 0; tracklist = []] *)
Definition initial : locals := Locals 0 0 0 0 0 [].

(** [if trackid not in tracklist: tracklist.append(trackid)] *)
Definition remember (id : Z) (seen : list Z) : list Z :=
  if existsb (Z.eqb id) seen then seen else seen ++ [id].

(** [d,t = dtime.split(" "); hour_of_day = int(t.split(":")[0])] *)
Definition hour_of_day (dtime : string) : result Z :=
  match PyStr.split " " dtime with
  | [d; t] =>
      match PyStr.split ":" t with
      | h :: _ => PyStr.int h
      | [] => Err IndexError
      end
  | _ => Err ValueError_unpack
  end.

(** The [if]/[elif] chain on [hour_of_day]. *)
Definition count_period (hour : Z) (st : locals) : locals :=
  let '(Locals mc mo af ev ni seen) := st in
  if hour <? 5 then Locals mc mo af ev (ni + 1) seen
  else if hour <? 12 then Locals mc (mo + 1) af ev ni seen
  else if hour <? 17 then Locals mc mo (af + 1) ev ni seen
  else if hour <? 22 then Locals mc mo af (ev + 1) ni seen
  else Locals mc mo af ev (ni + 1) seen.

(** The statements of the loop body before its [return]. *)
Definition update (st : locals) (t : track) : result locals :=
  let seen := remember (trackid t) (tracklist st) in
  hour <- hour_of_day (dtime t) ;;
  let mc := mcount st + mobile t in
  Ok (count_period hour
        (Locals mc (morning st) (afternoon st) (evening st) (night st) seen)).

(** [[len(tracklist), morning, afternoon, evening, night, mcount]] *)
Definition summary (st : locals) : list Z :=
  [Z.of_nat (List.length (tracklist st));
   morning st; afternoon st; evening st; night st; mcount st].

(** The whole loop body: the [return] is its last statement. *)
Definition loop_body (st : locals) (t : track) : flow locals (list Z) :=
  match update st t with
  | Ok st' => Return (summary st')
  | Err e => Raise e
  end.

(** A call that runs off the end of the function returns [None]. *)
Definition compute_stats_by_user (tracks : list track) : outcome :=
  match for_each loop_body initial tracks with
  | Next _ => Returned PyNone
  | Return v => Returned (PyList v)
  | Raise e => Raised e
  end.

(** ** Reading a summary *)

Definition unique_of (o : outcome) : option Z :=
  match o with
  | Returned (PyList [u; _; _; _; _; _]) => Some u
  | _ => None
  end.

Definition buckets_of (o : outcome) : option (Z * Z * Z * Z) :=
  match o with
  | Returned (PyList [_; mo; af; ev; ni; _]) => Some (mo, af, ev, ni)
  | _ => None
  end.

Definition mobile_of (o : outcome) : option Z :=
  match o with
  | Returned (PyList [_; _; _; _; _; mc]) => Some mc
  | _ => None
  end.

Definition signals_error (o : outcome) : Prop :=
  exists e, o = Raised e.

(** How far the four period counters moved between two states, as
    [(morning, afternoon, evening, night)]. *)
Definition increments (st st' : locals) : Z * Z * Z * Z :=
  (morning st' - morning st, afternoon st' - afternoon st,
   evening st' - evening st, night st' - night st).

Definition b2z (b : bool) : Z := if b then 1 else 0.

Definition in_range (lo hi h : Z) : bool := (lo <=? h) && (h <? hi).

(** The stated split of the 24-hour clock, as the increments it asks for:
    morning [5,12), afternoon [12,17), evening [17,22), and night
    [0,5) with [22,24). *)
Definition half_open_buckets (h : Z) : Z * Z * Z * Z :=
  (b2z (in_range 5 12 h), b2z (in_range 12 17 h), b2z (in_range 17 22 h),
   b2z (in_range 0 5 h || in_range 22 24 h)).

(** The four ways of adding one to exactly one period counter. *)
Definition one_bucket : list (Z * Z * Z * Z) :=
  [(1, 0, 0, 0); (0, 1, 0, 0); (0, 0, 1, 0); (0, 0, 0, 1)].

Definition flag_sum (tracks : list track) : Z :=
  fold_right Z.add 0 (map mobile tracks).

Definition valid_flag (t : track) : Prop := mobile t = 0 \/ mobile t = 1.

(** ** Sample data *)

(** The three-record group of the worked example. *)
Definition example_group : list track :=
  [ Track 1 "2014-01-01 03:00:00" 0 "00001";
    Track 1 "2014-01-01 09:00:00" 1 "00002";
    Track 2 "2014-01-01 23:30:00" 1 "00003" ].

(** Two events with distinct tracks, one in the night, one in the
    morning. *)
Definition two_events : list track :=
  [ Track 1 "2014-01-01 03:00:00" 0 "00001";
    Track 2 "2014-01-01 09:00:00" 1 "00002" ].

(** Two events of customer 48, in the notebook's own format. *)
Definition notebook_rows : list track :=
  [ Track 1532 (PyStr.quoted "2014-10-09 19:46:01") 1 (PyStr.quoted "14054");
    Track 325 (PyStr.quoted "2014-10-17 08:20:19") 0 (PyStr.quoted "61732") ].

(** ** The lines of [tracks.csv] *)

(** [xs[i]] for an index counted from 0. *)
Definition index {A : Type} (xs : list A) (i : nat) : result A :=
  match nth_error xs i with
  | Some x => Ok x
  | None => Err IndexError
  end.

(** [make_tracks_kv(str)]: the customer identifier of a line, paired
    with the one-event list built from the fields after it.  The list
    display is evaluated from left to right. *)
Definition make_tracks_kv (str : string) : result (string * list track) :=
  let line := PyStr.split "," str in
  key <- index line 1 ;;
  f2 <- index line 2 ;;
  id <- PyStr.int f2 ;;
  dt <- index line 3 ;;
  f4 <- index line 4 ;;
  m <- PyStr.int f4 ;;
  z <- index line 5 ;;
  Ok (key, [Track id dt m z]).

(** ** The rows of [live_table.csv] *)

(** What unpacking a profile into six names can raise. *)
Inductive unpack_exn : Type :=
| TypeError_not_iterable   (* the profile is None            *)
| ValueError_arity.        (* the profile has not six items  *)

(** One pass of the writing loop on a profile: [total_hour] and the
    row handed to [writerow]. *)
Definition live_row (v : value) : unpack_exn + (Z * list Z) :=
  match v with
  | PyNone => inl TypeError_not_iterable
  | PyList [unique; mo; af; ev; ni; mob] =>
      let total_hour := mo + af + ev + ni in
      inr (total_hour, [unique; mo; af; ev; ni; mob])
  | PyList _ => inl ValueError_arity
  end.

(** ** The word count of [1_examples.ipynb] *)

(** [text_file.flatMap(lambda line: line.split(" "))] *)
Definition words (lines : list string) : list string :=
  flat_map (PyStr.split " ") lines.

(** [.map(lambda word: (word,1))] *)
Definition word_pairs (lines : list string) : list (string * Z) :=
  map (fun word => (word, 1)) (words lines).

(** ** Vocabulary for statements about strings *)

(** How often a character occurs in a string. *)
Fixpoint occurrences (c : ascii) (s : string) : nat :=
  match s with
  | EmptyString => 0%nat
  | String x s' =>
      if Ascii.eqb x c then S (occurrences c s') else occurrences c s'
  end.

(** [sep.join(xs)] *)
Fixpoint join (sep : ascii) (xs : list string) : string :=
  match xs with
  | [] => EmptyString
  | [x] => x
  | x :: rest => (x ++ String sep (join sep rest))%string
  end.

(** The closed form of the summary of one record with hour [h]. *)
Definition first_summary (h flag : Z) : list Z :=
  [1;
   b2z (in_range 5 12 h); b2z (in_range 12 17 h); b2z (in_range 17 22 h);
   b2z ((h <? 5) || (22 <=? h));
   flag].

(** A line of the data set, in its own format: the timestamp and the
    postal code sit between double quotes. *)
Definition sample_line : string :=
  join "," ["0"; "48"; "511";
            PyStr.quoted "2014-12-04 03:35:27"; "1"; PyStr.quoted "23081"]%string.

(** ** Sanity checks of the helpers *)

Example split_blank :
  PyStr.split " " "2014-01-01 03:00:00" = ["2014-01-01"; "03:00:00"]%string.
Proof. reflexivity. Qed.

Example split_colon :
  PyStr.split ":" "03:00:00" = ["03"; "00"; "00"]%string.
Proof. reflexivity. Qed.

Example split_empty : PyStr.split " " "" = [""%string].
Proof. reflexivity. Qed.

Example int_plain : PyStr.int "03" = Ok 3.
Proof. reflexivity. Qed.

Example int_signed : PyStr.int " -7 " = Ok (-7).
Proof. reflexivity. Qed.

Example int_bad : PyStr.int "3h" = Err (ValueError_int "3h").
Proof. reflexivity. Qed.

Example int_no_digit : PyStr.int "-" = Err (ValueError_int "-").
Proof. reflexivity. Qed.

Example hour_quoted :
  hour_of_day (PyStr.quoted "2014-10-09 19:46:01") = Ok 19.
Proof. reflexivity. Qed.

Example hour_no_time : hour_of_day "2014-10-09" = Err ValueError_unpack.
Proof. reflexivity. Qed.

Example notebook_first_row :
  compute_stats_by_user notebook_rows = Returned (PyList [1; 0; 0; 1; 0; 1]).
Proof. reflexivity. Qed.

(** ** The loop body always leaves the function *)

Lemma loop_body_leaves (st : locals) (t : track) :
  loop_body st t =
    match update st t with
    | Ok st' => Return (summary st')
    | Err e => Raise e
    end.
Proof. reflexivity. Qed.

Lemma for_each_first (st : locals) (t : track) (rest : list track) :
  for_each loop_body st (t :: rest) = loop_body st t.
Proof.
  simpl. rewrite loop_body_leaves.
  destruct (update st t); reflexivity.
Qed.

Lemma compute_first (t : track) (rest : list track) :
  compute_stats_by_user (t :: rest) =
    match update initial t with
    | Ok st' => Returned (PyList (summary st'))
    | Err e => Raised e
    end.
Proof.
  unfold compute_stats_by_user. rewrite for_each_first, loop_body_leaves.
  destruct (update initial t); reflexivity.
Qed.

Lemma update_parsed (st : locals) (t : track) (h : Z) :
  hour_of_day (dtime t) = Ok h ->
  update st t =
    Ok (count_period h
          (Locals (mcount st + mobile t) (morning st) (afternoon st)
                  (evening st) (night st)
                  (remember (trackid t) (tracklist st)))).
Proof. intros Hh. unfold update. rewrite Hh. reflexivity. Qed.

(** ** The period chain *)

Ltac period_cases h :=
  unfold count_period;
  destruct (Z.ltb_spec h 5); [|
  destruct (Z.ltb_spec h 12); [|
  destruct (Z.ltb_spec h 17); [|
  destruct (Z.ltb_spec h 22)]]];
  cbn [morning afternoon evening night mcount tracklist].

Lemma count_period_keeps (h : Z) (st : locals) :
  mcount (count_period h st) = mcount st /\
  tracklist (count_period h st) = tracklist st.
Proof. destruct st. period_cases h; auto. Qed.

Lemma count_period_in_day (h : Z) (st : locals) :
  0 <= h < 24 ->
  increments st (count_period h st) = half_open_buckets h.
Proof.
  intros Hh. destruct st as [mc mo af ev ni seen].
  unfold increments, half_open_buckets, in_range, b2z.
  period_cases h;
    repeat match goal with
           | |- context [?a <=? ?b] => destruct (Z.leb_spec a b); try lia
           | |- context [?a <? ?b] => destruct (Z.ltb_spec a b); try lia
           end;
    cbn [andb orb]; repeat f_equal; lia.
Qed.

Lemma count_period_one (h : Z) (st : locals) :
  In (increments st (count_period h st)) one_bucket /\
  (22 <= h \/ h < 0 -> increments st (count_period h st) = (0, 0, 0, 1)).
Proof.
  destruct st as [mc mo af ev ni seen].
  unfold increments, one_bucket.
  period_cases h;
    replace (mo - mo) with 0 by lia; replace (af - af) with 0 by lia;
    replace (ev - ev) with 0 by lia; replace (ni - ni) with 0 by lia;
    replace (mo + 1 - mo) with 1 by lia; replace (af + 1 - af) with 1 by lia;
    replace (ev + 1 - ev) with 1 by lia; replace (ni + 1 - ni) with 1 by lia;
    (split; [cbn; tauto | intros []; first [reflexivity | lia]]).
Qed.

Lemma increments_fresh (h : Z) (st : locals) (mc : Z) (seen : list Z) :
  increments st
    (count_period h
       (Locals mc (morning st) (afternoon st) (evening st) (night st) seen)) =
  increments st (count_period h st).
Proof. destruct st. period_cases h; reflexivity. Qed.

Lemma buckets_first (t : track) (rest : list track) (h : Z) :
  hour_of_day (dtime t) = Ok h ->
  buckets_of (compute_stats_by_user (t :: rest)) =
    Some (increments initial (count_period h initial)).
Proof.
  intros Hh. rewrite compute_first, (update_parsed initial t h Hh).
  unfold initial, increments, summary, buckets_of.
  period_cases h; reflexivity.
Qed.

(** ** What the routine returns for a first record *)

Lemma split_nonempty (sep : ascii) (s : string) : PyStr.split sep s <> [].
Proof.
  destruct s as [|c s]; cbn; [discriminate|].
  destruct (Ascii.eqb c sep); [discriminate|].
  destruct (PyStr.split sep s); discriminate.
Qed.

(** Indexing the split time at 0 never fails. *)
Lemma hour_of_day_no_index_error (dt : string) :
  hour_of_day dt <> Err IndexError.
Proof.
  unfold hour_of_day.
  destruct (PyStr.split " " dt) as [|d [|t [|x l]]]; try discriminate.
  pose proof (split_nonempty ":" t) as Hne.
  destruct (PyStr.split ":" t) as [|hd tl]; [contradiction|].
  unfold PyStr.int.
  destruct (match PyStr.lstrip hd with
            | String "-"%char r => option_map Z.opp (PyStr.unsigned r)
            | String "+"%char r => PyStr.unsigned r
            | _ => PyStr.unsigned (PyStr.lstrip hd)
            end); discriminate.
Qed.

(** One track seen, and the mobile flag of the first record. *)
Lemma summary_of_first (t : track) (rest : list track) (h : Z) :
  hour_of_day (dtime t) = Ok h ->
  unique_of (compute_stats_by_user (t :: rest)) = Some 1 /\
  mobile_of (compute_stats_by_user (t :: rest)) = Some (mobile t).
Proof.
  intros Hh. rewrite compute_first, (update_parsed initial t h Hh).
  unfold initial, summary, unique_of, mobile_of, remember.
  cbn [existsb app mcount morning afternoon evening night tracklist].
  period_cases h; cbn [List.length Z.of_nat]; split; reflexivity.
Qed.

(** ** Properties of the routine *)

(** C1.  On the empty input the loop body, which holds the only
    [return], never runs: the call evaluates to [None], which is no
    summary and in particular not the all-zero one. *)
Theorem empty_group_returns_none :
  compute_stats_by_user [] = Returned PyNone /\
  compute_stats_by_user [] <> Returned (PyList [0; 0; 0; 0; 0; 0]) /\
  unique_of (compute_stats_by_user []) = None.
Proof.
  repeat split. discriminate.
Qed.

(** C2.  On a non-empty input the routine gives what it gives on the
    input cut down to its first record, be that a summary or an
    exception: the [return] closes the first pass through the loop. *)
Theorem returns_after_first (t : track) (rest : list track) :
  compute_stats_by_user (t :: rest) = compute_stats_by_user [t].
Proof.
  rewrite (compute_first t rest), (compute_first t []). reflexivity.
Qed.

(** C3.  The worked example has three records, all with timestamps of
    the stated format, yet the four period counters of its summary add
    up to 1: only the first record is counted. *)
Theorem bucket_total_misses_records :
  Forall (fun t => exists h, hour_of_day (dtime t) = Ok h /\ 0 <= h < 24)
         example_group /\
  List.length example_group = 3%nat /\
  buckets_of (compute_stats_by_user example_group) = Some (0, 0, 0, 1) /\
  0 + 0 + 0 + 1 <> Z.of_nat (List.length example_group).
Proof.
  split.
  - repeat constructor.
    + exists 3. split; [reflexivity | lia].
    + exists 9. split; [reflexivity | lia].
    + exists 23. split; [reflexivity | lia].
  - repeat split. discriminate.
Qed.

(** C4.  Swapping the two records of [two_events] changes the summary:
    each order reports its own first record. *)
Theorem order_changes_summary :
  Permutation two_events (rev two_events) /\
  compute_stats_by_user two_events = Returned (PyList [1; 0; 0; 0; 1; 0]) /\
  compute_stats_by_user (rev two_events) =
    Returned (PyList [1; 1; 0; 0; 0; 1]) /\
  compute_stats_by_user two_events <> compute_stats_by_user (rev two_events).
Proof.
  split; [apply Permutation_rev|].
  repeat split. discriminate.
Qed.

(** C5.  On the worked example the routine returns the summary of the
    first record, (1, 0, 0, 0, 1, 0), not (2, 1, 0, 0, 2, 2). *)
Theorem example_group_summary :
  compute_stats_by_user example_group = Returned (PyList [1; 0; 0; 0; 1; 0]) /\
  compute_stats_by_user example_group <> Returned (PyList [2; 1; 0; 0; 2; 2]).
Proof.
  split; [reflexivity | discriminate].
Qed.

(** C6.  The flags of the worked example are all 0 or 1 and add up to 2,
    while the mobile counter of its summary is 0, the first flag. *)
Theorem mobile_count_misses_flags :
  Forall valid_flag example_group /\
  flag_sum example_group = 2 /\
  mobile_of (compute_stats_by_user example_group) = Some 0.
Proof.
  split.
  - unfold example_group.
    repeat (apply Forall_cons; [unfold valid_flag; cbn; auto|]).
    apply Forall_nil.
  - split; reflexivity.
Qed.

(** C7.  The two records of [two_events] carry distinct track
    identifiers, yet the unique-track count of the summary is 1, not 2. *)
Theorem unique_count_misses_tracks :
  NoDup (map trackid two_events) /\
  Z.of_nat (List.length two_events) = 2 /\
  unique_of (compute_stats_by_user two_events) = Some 1.
Proof.
  split.
  - cbn. repeat constructor; cbn; intuition discriminate.
  - split; reflexivity.
Qed.

(** C8.  A record whose timestamp gives an hour of the day [h], from 0
    to 23, moves the period counters by the half-open split of the
    clock: night [0,5) and [22,24), morning [5,12), afternoon [12,17),
    evening [17,22).  This holds for the loop body from any state, and
    for the summary the routine returns for that record. *)
Theorem period_ranges (st : locals) (t : track) (rest : list track) (h : Z) :
  hour_of_day (dtime t) = Ok h ->
  0 <= h < 24 ->
  (exists st', update st t = Ok st' /\
               increments st st' = half_open_buckets h) /\
  buckets_of (compute_stats_by_user (t :: rest)) = Some (half_open_buckets h).
Proof.
  intros Hh Hday. split.
  - rewrite (update_parsed st t h Hh). eexists. split; [reflexivity|].
    rewrite increments_fresh. apply count_period_in_day, Hday.
  - rewrite (buckets_first t rest h Hh).
    f_equal. apply count_period_in_day, Hday.
Qed.

(** The boundary hours 5, 12, 17, 22 and 0. *)
Lemma period_ranges_witness :
  buckets_of (compute_stats_by_user
                [Track 1 "2014-01-01 05:00:00" 0 "00001"]) = Some (1, 0, 0, 0) /\
  buckets_of (compute_stats_by_user
                [Track 1 "2014-01-01 12:00:00" 0 "00001"]) = Some (0, 1, 0, 0) /\
  buckets_of (compute_stats_by_user
                [Track 1 "2014-01-01 17:00:00" 0 "00001"]) = Some (0, 0, 1, 0) /\
  buckets_of (compute_stats_by_user
                [Track 1 "2014-01-01 22:00:00" 0 "00001"]) = Some (0, 0, 0, 1) /\
  buckets_of (compute_stats_by_user
                [Track 1 "2014-01-01 00:00:00" 0 "00001"]) = Some (0, 0, 0, 1).
Proof.
  split; [|split; [|split; [|split]]].
  - apply (period_ranges initial (Track 1 "2014-01-01 05:00:00" 0 "00001")
             [] 5); [reflexivity | lia].
  - apply (period_ranges initial (Track 1 "2014-01-01 12:00:00" 0 "00001")
             [] 12); [reflexivity | lia].
  - apply (period_ranges initial (Track 1 "2014-01-01 17:00:00" 0 "00001")
             [] 17); [reflexivity | lia].
  - apply (period_ranges initial (Track 1 "2014-01-01 22:00:00" 0 "00001")
             [] 22); [reflexivity | lia].
  - apply (period_ranges initial (Track 1 "2014-01-01 00:00:00" 0 "00001")
             [] 0); [reflexivity | lia].
Defined.

(** C9 as stated fails: a record with device flag 7 sits in the input,
    and the call returns a summary with mobile counter 7 instead of
    signalling an error. *)
Lemma invalid_flag_not_signalled :
  ~ (forall tracks : list track,
       (exists t, In t tracks /\ ~ valid_flag t) ->
       signals_error (compute_stats_by_user tracks)).
Proof.
  intros Hclaim.
  destruct (Hclaim [Track 1 "2014-01-01 03:00:00" 7 "00001"]) as [e He].
  - eexists. split; [left; reflexivity|].
    unfold valid_flag. cbn. lia.
  - discriminate He.
Qed.

(** C9, amended.  For a single-record input whose timestamp gives an
    hour, the routine signals no error whatever integer the device flag
    is: the flag is added unchecked, and the mobile counter of the
    returned summary is the flag itself. *)
Theorem flag_added_unchecked (id m : Z) (dt z : string) (h : Z) :
  hour_of_day dt = Ok h ->
  ~ signals_error (compute_stats_by_user [Track id dt m z]) /\
  mobile_of (compute_stats_by_user [Track id dt m z]) = Some m.
Proof.
  intros Hh.
  rewrite compute_first, (update_parsed initial (Track id dt m z) h Hh).
  split.
  - intros [e He]. discriminate He.
  - unfold initial, summary, mobile_of.
    destruct (count_period_keeps h
                (Locals (0 + m) 0 0 0 0 (remember id []))) as [Hmc _].
    cbn [mcount morning afternoon evening night tracklist trackid mobile].
    rewrite Hmc. reflexivity.
Qed.

Lemma flag_added_unchecked_witness :
  ~ signals_error
      (compute_stats_by_user [Track 1 "2014-01-01 03:00:00" 7 "00001"]) /\
  mobile_of
    (compute_stats_by_user [Track 1 "2014-01-01 03:00:00" 7 "00001"]) =
  Some 7.
Proof.
  apply (flag_added_unchecked 1 7 "2014-01-01 03:00:00" "00001" 3).
  reflexivity.
Defined.

(** C10.  A record whose timestamp gives an hour [h], any integer, adds
    one to exactly one of the four period counters; for [h] from 22 up,
    and for negative [h], that counter is night.  This holds for the
    loop body from any state, and for the summary the routine returns
    for that record. *)
Theorem one_bucket_per_event
        (st : locals) (t : track) (rest : list track) (h : Z) :
  hour_of_day (dtime t) = Ok h ->
  (exists st', update st t = Ok st' /\
               In (increments st st') one_bucket /\
               (22 <= h \/ h < 0 -> increments st st' = (0, 0, 0, 1))) /\
  (exists b, buckets_of (compute_stats_by_user (t :: rest)) = Some b /\
             In b one_bucket /\
             (22 <= h \/ h < 0 -> b = (0, 0, 0, 1))).
Proof.
  intros Hh. split.
  - rewrite (update_parsed st t h Hh). eexists. split; [reflexivity|].
    rewrite increments_fresh. apply count_period_one.
  - rewrite (buckets_first t rest h Hh). eexists. split; [reflexivity|].
    apply count_period_one.
Qed.

(** Hours outside the clock do come out of [hour_of_day]: 99 and -3. *)
Lemma one_bucket_per_event_witness :
  (hour_of_day "2014-01-01 99:00:00" = Ok 99 /\
   exists b,
     buckets_of (compute_stats_by_user
                   [Track 1 "2014-01-01 99:00:00" 0 "00001"]) = Some b /\
     In b one_bucket /\ (22 <= 99 \/ 99 < 0 -> b = (0, 0, 0, 1))) /\
  (hour_of_day "2014-01-01 -3:00:00" = Ok (-3) /\
   exists b,
     buckets_of (compute_stats_by_user
                   [Track 1 "2014-01-01 -3:00:00" 0 "00001"]) = Some b /\
     In b one_bucket /\ (22 <= -3 \/ -3 < 0 -> b = (0, 0, 0, 1))).
Proof.
  split; (split; [reflexivity|]).
  - apply (one_bucket_per_event initial
             (Track 1 "2014-01-01 99:00:00" 0 "00001") [] 99).
    reflexivity.
  - apply (one_bucket_per_event initial
             (Track 1 "2014-01-01 -3:00:00" 0 "00001") [] (-3)).
    reflexivity.
Defined.

(** ** Facts about [split] *)

Lemma occurrences_app (c : ascii) (a b : string) :
  occurrences c (a ++ b) = (occurrences c a + occurrences c b)%nat.
Proof.
  induction a as [|x a IH]; cbn; [reflexivity|].
  destruct (Ascii.eqb x c); rewrite IH; reflexivity.
Qed.

Lemma split_length (sep : ascii) (s : string) :
  List.length (PyStr.split sep s) = S (occurrences sep s).
Proof.
  induction s as [|x s IH]; cbn; [reflexivity|].
  destruct (Ascii.eqb x sep); cbn; [rewrite IH; reflexivity|].
  destruct (PyStr.split sep s); cbn in *; [discriminate | assumption].
Qed.

Lemma split_pieces_free (sep : ascii) (s : string) :
  Forall (fun w => occurrences sep w = 0%nat) (PyStr.split sep s).
Proof.
  induction s as [|x s IH]; cbn.
  - repeat constructor.
  - destruct (Ascii.eqb x sep) eqn:Hx.
    + constructor; [reflexivity | assumption].
    + destruct (PyStr.split sep s) as [|w ws].
      * repeat constructor. cbn. rewrite Hx. reflexivity.
      * inversion IH; subst. constructor; [|assumption].
        cbn. rewrite Hx. assumption.
Qed.

Lemma split_whole (sep : ascii) (s : string) :
  occurrences sep s = 0%nat -> PyStr.split sep s = [s].
Proof.
  induction s as [|x s IH]; cbn; [reflexivity|].
  destruct (Ascii.eqb x sep); [discriminate|].
  intros H. rewrite (IH H). reflexivity.
Qed.

Lemma split_app (sep : ascii) (a b : string) :
  PyStr.split sep (a ++ String sep b) = PyStr.split sep a ++ PyStr.split sep b.
Proof.
  induction a as [|x a IH]; cbn.
  - rewrite Ascii.eqb_refl. reflexivity.
  - destruct (Ascii.eqb x sep); rewrite IH; [reflexivity|].
    pose proof (split_nonempty sep a) as Hne.
    destruct (PyStr.split sep a); [contradiction | reflexivity].
Qed.

Lemma join_cons (sep : ascii) (x y : string) (rest : list string) :
  join sep (x :: y :: rest) = (x ++ String sep (join sep (y :: rest)))%string.
Proof. reflexivity. Qed.

Lemma join_split (sep : ascii) (s : string) :
  join sep (PyStr.split sep s) = s.
Proof.
  induction s as [|x s IH]; cbn [PyStr.split]; [reflexivity|].
  pose proof (split_nonempty sep s) as Hne.
  destruct (Ascii.eqb x sep) eqn:Hx.
  - apply Ascii.eqb_eq in Hx. subst x.
    destruct (PyStr.split sep s) as [|w ws]; [contradiction|].
    rewrite join_cons, IH. reflexivity.
  - destruct (PyStr.split sep s) as [|w [|w' ws]]; [contradiction| |].
    + cbn [join] in *. rewrite IH. reflexivity.
    + rewrite join_cons in *. rewrite <- IH. reflexivity.
Qed.

Lemma split_join (sep : ascii) (xs : list string) :
  xs <> [] ->
  Forall (fun w => occurrences sep w = 0%nat) xs ->
  PyStr.split sep (join sep xs) = xs.
Proof.
  induction xs as [|x [|y rest] IH]; intros Hne Hfree.
  - contradiction.
  - cbn. apply split_whole. inversion Hfree; assumption.
  - inversion Hfree as [|? ? Hx Hrest]; subst.
    rewrite join_cons, split_app, (split_whole sep x Hx), IH; [reflexivity| |assumption].
    discriminate.
Qed.

(** ** The routine on a non-empty group, in closed form *)

Lemma compute_cons (t : track) (rest : list track) :
  compute_stats_by_user (t :: rest) =
    match hour_of_day (dtime t) with
    | Ok h => Returned (PyList (first_summary h (mobile t)))
    | Err e => Raised e
    end.
Proof.
  rewrite compute_first. unfold update, bind.
  destruct (hour_of_day (dtime t)) as [h|e]; [|reflexivity].
  unfold initial, summary, first_summary, remember, in_range, b2z.
  cbn [existsb app mcount morning afternoon evening night tracklist Z.add].
  period_cases h; cbn [List.length Z.of_nat Pos.of_succ_nat];
    repeat match goal with
           | |- context [?a <=? ?b] => destruct (Z.leb_spec a b); try lia
           | |- context [?a <? ?b] => destruct (Z.ltb_spec a b); try lia
           end;
    reflexivity.
Qed.

Lemma int_error (s : string) (e : exn) :
  PyStr.int s = Err e -> e = ValueError_int s.
Proof.
  unfold PyStr.int.
  destruct (match PyStr.lstrip s with
            | String "-"%char r => option_map Z.opp (PyStr.unsigned r)
            | String "+"%char r => PyStr.unsigned r
            | _ => PyStr.unsigned (PyStr.lstrip s)
            end); [discriminate|].
  intros H. injection H as <-. reflexivity.
Qed.

Lemma hour_of_day_unpack (dt : string) :
  hour_of_day dt = Err ValueError_unpack <->
  occurrences " " dt <> 1%nat.
Proof.
  unfold hour_of_day.
  pose proof (split_length " " dt) as Hlen.
  destruct (PyStr.split " " dt) as [|d [|t [|x l]]]; cbn in Hlen.
  - discriminate.
  - split; [intros _; lia | reflexivity].
  - injection Hlen as Hlen. split; [|intros H; lia].
    pose proof (split_nonempty ":" t) as Hne.
    destruct (PyStr.split ":" t) as [|hd tl]; [contradiction|].
    intros H. apply int_error in H. discriminate.
  - split; [intros _; lia | reflexivity].
Qed.

Lemma hour_of_day_errors (dt : string) (e : exn) :
  hour_of_day dt = Err e ->
  e = ValueError_unpack \/ exists s, e = ValueError_int s.
Proof.
  unfold hour_of_day.
  destruct (PyStr.split " " dt) as [|d [|t [|x l]]];
    try (intros H; injection H as <-; left; reflexivity).
  pose proof (split_nonempty ":" t) as Hne.
  destruct (PyStr.split ":" t) as [|hd tl]; [contradiction|].
  intros H. apply int_error in H. right. exists hd. assumption.
Qed.

Lemma hour_of_time_part (d hh rest : string) :
  occurrences " " d = 0%nat ->
  occurrences " " hh = 0%nat ->
  occurrences ":" hh = 0%nat ->
  occurrences " " rest = 0%nat ->
  hour_of_day (d ++ String " " (hh ++ String ":" rest)) = PyStr.int hh.
Proof.
  intros Hd Hhb Hhc Hr. unfold hour_of_day.
  rewrite split_app, (split_whole " " d Hd).
  rewrite (split_whole " " (hh ++ String ":" rest)).
  - cbn [app]. rewrite split_app, (split_whole ":" hh Hhc).
    reflexivity.
  - rewrite occurrences_app. cbn. rewrite Hhb, Hr. reflexivity.
Qed.

Lemma append_assoc (a b c : string) :
  ((a ++ b) ++ c = a ++ (b ++ c))%string.
Proof.
  induction a as [|x a IH]; cbn; [reflexivity | rewrite IH; reflexivity].
Qed.

Lemma quoted_shape (d hh rest : string) :
  PyStr.quoted (d ++ String " " (hh ++ String ":" rest)) =
  (String (ascii_of_nat 34) d ++
   String " " (hh ++ String ":" (rest ++ String (ascii_of_nat 34) "")))%string.
Proof.
  unfold PyStr.quoted. cbn [String.append]. f_equal.
  rewrite append_assoc. cbn [String.append]. f_equal. f_equal.
  rewrite append_assoc. reflexivity.
Qed.

Lemma make_tracks_kv_join (e k a dt b z : string) (more : list string) :
  Forall (fun w => occurrences "," w = 0%nat)
         (e :: k :: a :: dt :: b :: z :: more) ->
  make_tracks_kv (join "," (e :: k :: a :: dt :: b :: z :: more)) =
    (id <- PyStr.int a ;; m <- PyStr.int b ;; Ok (k, [Track id dt m z])).
Proof.
  intros Hfree. unfold make_tracks_kv.
  rewrite split_join; [|discriminate|assumption].
  unfold index. cbn [nth_error bind]. reflexivity.
Qed.

Lemma quoted_free (c : ascii) (s : string) :
  c <> ascii_of_nat 34 ->
  occurrences c s = 0%nat ->
  occurrences c (PyStr.quoted s) = 0%nat.
Proof.
  intros Hc Hs. unfold PyStr.quoted.
  assert (Hq : Ascii.eqb (ascii_of_nat 34) c = false).
  { apply Ascii.eqb_neq. congruence. }
  cbn [occurrences]. rewrite Hq, occurrences_app, Hs.
  cbn [occurrences]. rewrite Hq. reflexivity.
Qed.

(** ** Further properties *)

(** X1.  On a non-empty group the routine is decided by the first
    record alone.  If its timestamp gives the hour [h], the summary is
    one unique track, a single 1 among the four periods, placed by
    [h] (night for every [h] under 5 or from 22 up), and the flag of
    that record as mobile count; if the timestamp is rejected, that
    very exception is raised. *)
Theorem first_record_decides (t : track) (rest : list track) :
  (forall h, hour_of_day (dtime t) = Ok h ->
     compute_stats_by_user (t :: rest) =
       Returned (PyList (first_summary h (mobile t)))) /\
  (forall e, hour_of_day (dtime t) = Err e ->
     compute_stats_by_user (t :: rest) = Raised e).
Proof.
  split; intros x Hx; rewrite compute_cons, Hx; reflexivity.
Qed.

Lemma first_record_decides_witness :
  compute_stats_by_user notebook_rows = Returned (PyList [1; 0; 0; 1; 0; 1]) /\
  compute_stats_by_user [Track 7 "2014-10-09T19:46:01" 1 "14054"] =
    Raised ValueError_unpack.
Proof.
  split.
  - apply (proj1 (first_record_decides
                    (Track 1532 (PyStr.quoted "2014-10-09 19:46:01") 1
                           (PyStr.quoted "14054"))
                    [Track 325 (PyStr.quoted "2014-10-17 08:20:19") 0
                           (PyStr.quoted "61732")]) 19).
    reflexivity.
  - apply (proj2 (first_record_decides
                    (Track 7 "2014-10-09T19:46:01" 1 "14054") [])
                 ValueError_unpack).
    reflexivity.
Defined.

(** X2.  The routine evaluates to [None] for the empty group and for no
    other input. *)
Theorem none_only_for_empty (tracks : list track) :
  compute_stats_by_user tracks = Returned PyNone <-> tracks = [].
Proof.
  split.
  - destruct tracks as [|t rest]; [reflexivity|].
    rewrite compute_cons.
    destruct (hour_of_day (dtime t)); discriminate.
  - intros ->. reflexivity.
Qed.

(** X3.  Whatever the routine raises is a [ValueError] of the first
    record's timestamp: the failed unpacking of its split at the blank,
    or the failed [int] of its hour text.  Indexing the split time
    never fails, and no later record can make the call fail. *)
Theorem raises_only_value_errors (tracks : list track) (e : exn) :
  compute_stats_by_user tracks = Raised e ->
  (e = ValueError_unpack \/ exists s, e = ValueError_int s) /\
  exists t rest, tracks = t :: rest /\ hour_of_day (dtime t) = Err e.
Proof.
  destruct tracks as [|t rest]; [discriminate|].
  rewrite compute_cons.
  destruct (hour_of_day (dtime t)) as [h|e'] eqn:Hh; [discriminate|].
  intros H. injection H as <-. split.
  - apply (hour_of_day_errors (dtime t)), Hh.
  - exists t, rest. split; [reflexivity | assumption].
Qed.

Lemma raises_only_value_errors_witness :
  (ValueError_int "3h" = ValueError_unpack \/
   exists s, ValueError_int "3h" = ValueError_int s) /\
  exists t rest,
    [Track 1 "2014-01-01 3h:00:00" 0 "00001"] = t :: rest /\
    hour_of_day (dtime t) = Err (ValueError_int "3h").
Proof.
  apply (raises_only_value_errors
           [Track 1 "2014-01-01 3h:00:00" 0 "00001"] (ValueError_int "3h")).
  reflexivity.
Defined.

(** X4.  The routine fails at [d,t = dtime.split(" ")] exactly when the
    timestamp of the first record does not hold exactly one blank. *)
Theorem unpack_error_iff_blanks (t : track) (rest : list track) :
  compute_stats_by_user (t :: rest) = Raised ValueError_unpack <->
  occurrences " " (dtime t) <> 1%nat.
Proof.
  rewrite compute_cons, <- hour_of_day_unpack.
  destruct (hour_of_day (dtime t)) as [h|e]; split; intros H;
    try discriminate; congruence.
Qed.

(** X5.  Of a timestamp with one blank, the routine reads only the text
    between the blank and the first colon: the hour is [int] of that
    text, whatever the date, the minutes and the seconds are, and the
    double quotes the data set keeps around the field change nothing. *)
Theorem hour_between_blank_and_colon (d hh rest : string) :
  occurrences " " d = 0%nat ->
  occurrences " " hh = 0%nat ->
  occurrences ":" hh = 0%nat ->
  occurrences " " rest = 0%nat ->
  hour_of_day (d ++ String " " (hh ++ String ":" rest)) = PyStr.int hh /\
  hour_of_day (PyStr.quoted (d ++ String " " (hh ++ String ":" rest))) =
    PyStr.int hh.
Proof.
  intros Hd Hhb Hhc Hr. split.
  - apply hour_of_time_part; assumption.
  - rewrite quoted_shape. apply hour_of_time_part; try assumption.
    rewrite occurrences_app, Hr. reflexivity.
Qed.

Lemma hour_between_blank_and_colon_witness :
  hour_of_day "2014-12-04 03:35:27" = Ok 3 /\
  hour_of_day (PyStr.quoted "2014-12-04 03:35:27") = Ok 3.
Proof.
  apply (hour_between_blank_and_colon "2014-12-04" "03" "35:27");
    reflexivity.
Defined.

Lemma remember_in (id : Z) (seen : list Z) (x : Z) :
  In x (remember id seen) <-> x = id \/ In x seen.
Proof.
  unfold remember. destruct (existsb (Z.eqb id) seen) eqn:Hex.
  - apply existsb_exists in Hex as (y & Hy & Heq).
    apply Z.eqb_eq in Heq. subst y.
    split; [auto | intros [-> | H]; assumption].
  - rewrite in_app_iff. cbn. intuition.
Qed.

Lemma remember_nodup (id : Z) (seen : list Z) :
  NoDup seen -> NoDup (remember id seen).
Proof.
  intros Hnd. unfold remember.
  destruct (existsb (Z.eqb id) seen) eqn:Hex; [assumption|].
  apply (Permutation_NoDup (Permutation_cons_append seen id)).
  constructor; [|assumption].
  intros Hin.
  assert (existsb (Z.eqb id) seen = true) as Habs.
  { apply existsb_exists. exists id. split; [assumption | apply Z.eqb_refl]. }
  congruence.
Qed.

Lemma remember_length (id : Z) (seen : list Z) :
  (List.length seen <= List.length (remember id seen) <=
   S (List.length seen))%nat.
Proof.
  unfold remember. destruct (existsb (Z.eqb id) seen).
  - lia.
  - rewrite length_app. cbn. lia.
Qed.

Lemma first_summary_total (h flag : Z) :
  exists u mo af ev ni,
    first_summary h flag = [u; mo; af; ev; ni; flag] /\
    mo + af + ev + ni = 1.
Proof.
  unfold first_summary, in_range, b2z.
  do 5 eexists. split; [reflexivity|].
  destruct (Z.ltb_spec h 5), (Z.leb_spec 5 h), (Z.ltb_spec h 12),
    (Z.leb_spec 12 h), (Z.ltb_spec h 17), (Z.leb_spec 17 h),
    (Z.ltb_spec h 22), (Z.leb_spec 22 h); cbn; lia.
Qed.

(** X6.  What one pass of the loop body keeps, from any state: a
    track list free of duplicates stays so, holds the track of the
    record besides what it held, grows by one entry at most, and the
    mobile count grows by the flag of the record. *)
Theorem loop_body_bookkeeping (st st' : locals) (t : track) :
  update st t = Ok st' ->
  NoDup (tracklist st) ->
  NoDup (tracklist st') /\
  (forall x, In x (tracklist st') <-> x = trackid t \/ In x (tracklist st)) /\
  (List.length (tracklist st) <= List.length (tracklist st') <=
   S (List.length (tracklist st)))%nat /\
  mcount st' = mcount st + mobile t.
Proof.
  intros Hup Hnd. unfold update, bind in Hup.
  destruct (hour_of_day (dtime t)) as [h|e]; [|discriminate].
  cbv zeta in Hup.
  assert (Hst : st' =
                count_period h
                  (Locals (mcount st + mobile t) (morning st) (afternoon st)
                          (evening st) (night st)
                          (remember (trackid t) (tracklist st))))
    by congruence.
  destruct (count_period_keeps h
              (Locals (mcount st + mobile t) (morning st) (afternoon st)
                      (evening st) (night st)
                      (remember (trackid t) (tracklist st)))) as [Hmc Hseen].
  rewrite Hst, Hmc, Hseen. cbn [mcount tracklist].
  repeat split.
  - apply remember_nodup, Hnd.
  - apply remember_in.
  - apply remember_in.
  - apply remember_length.
  - apply remember_length.
Qed.

Lemma loop_body_bookkeeping_witness :
  NoDup [4; 9] /\
  (forall x, In x [4; 9] <-> x = 9 \/ In x [4; 9]) /\
  (2 <= 2 <= 3)%nat /\
  6 = 5 + 1.
Proof.
  apply (loop_body_bookkeeping
           (Locals 5 1 0 0 1 [4; 9]) (Locals 6 1 0 1 1 [4; 9])
           (Track 9 "2014-10-09 19:46:01" 1 "14054")).
  - reflexivity.
  - repeat constructor; cbn; intuition discriminate.
Defined.

(** X7.  [make_tracks_kv] on a line of six or more comma-free fields:
    the second field is the key, the third and fifth go through [int],
    the fourth and sixth are kept as they are; the first field and
    every field after the sixth are dropped.  The line is rejected
    exactly when one of the two [int] calls is, the third field first. *)
Theorem make_tracks_kv_fields (e k a dt b z : string) (more : list string) :
  Forall (fun w => occurrences "," w = 0%nat)
         (e :: k :: a :: dt :: b :: z :: more) ->
  make_tracks_kv (join "," (e :: k :: a :: dt :: b :: z :: more)) =
    match PyStr.int a, PyStr.int b with
    | Ok id, Ok m => Ok (k, [Track id dt m z])
    | Ok _, Err err => Err err
    | Err err, _ => Err err
    end.
Proof.
  intros Hfree. rewrite (make_tracks_kv_join e k a dt b z more Hfree).
  unfold bind. destruct (PyStr.int a), (PyStr.int b); reflexivity.
Qed.

Lemma make_tracks_kv_fields_witness :
  make_tracks_kv "0,48,511,2014-12-04 03:35:27,1,23081,left,over" =
    Ok ("48"%string, [Track 511 "2014-12-04 03:35:27" 1 "23081"]).
Proof.
  apply (make_tracks_kv_fields "0" "48" "511" "2014-12-04 03:35:27" "1"
           "23081" ["left"; "over"]%string).
  repeat constructor.
Defined.

(** X8.  A line with fewer than five commas is always rejected by
    [make_tracks_kv]: with [IndexError] at the first missing field,
    or before that with the [ValueError] of an [int] call. *)
Theorem make_tracks_kv_short_line (str : string) :
  (occurrences "," str < 5)%nat ->
  make_tracks_kv str = Err IndexError \/
  exists s, make_tracks_kv str = Err (ValueError_int s).
Proof.
  intros Hshort. unfold make_tracks_kv.
  pose proof (split_length "," str) as Hlen.
  destruct (PyStr.split "," str) as [|x0 [|x1 [|x2 [|x3 [|x4 [|x5 l]]]]]];
    cbn in Hlen; try lia; unfold index; cbn [nth_error bind];
    try (left; reflexivity).
  - destruct (PyStr.int x2) as [id|err] eqn:H2; cbn [bind].
    + left; reflexivity.
    + apply int_error in H2. subst err. right. eexists. reflexivity.
  - destruct (PyStr.int x2) as [id|err] eqn:H2; cbn [bind].
    + left; reflexivity.
    + apply int_error in H2. subst err. right. eexists. reflexivity.
  - destruct (PyStr.int x2) as [id|err] eqn:H2; cbn [bind].
    + destruct (PyStr.int x4) as [m|err] eqn:H4; cbn [bind].
      * left; reflexivity.
      * apply int_error in H4. subst err. right. eexists. reflexivity.
    + apply int_error in H2. subst err. right. eexists. reflexivity.
Qed.

Lemma make_tracks_kv_short_line_witness :
  (make_tracks_kv "0,48,511,2014-12-04 03:35:27,1" = Err IndexError \/
   exists s,
     make_tracks_kv "0,48,511,2014-12-04 03:35:27,1" =
       Err (ValueError_int s)) /\
  (make_tracks_kv "0,48,track" = Err IndexError \/
   exists s, make_tracks_kv "0,48,track" = Err (ValueError_int s)).
Proof.
  split.
  - apply (make_tracks_kv_short_line "0,48,511,2014-12-04 03:35:27,1").
    cbn. lia.
  - apply (make_tracks_kv_short_line "0,48,track"). cbn. lia.
Defined.

(** X9.  From a line of the data set to the profile of a customer who
    has that one line.  With comma-free fields, a quoted timestamp
    [date hh:rest] and three texts [a], [b], [hh] that [int] accepts,
    [make_tracks_kv] gives the key with a one-event list, and the
    routine turns that list into the closed-form summary of hour
    [int(hh)] and flag [int(b)]. *)
Theorem line_profile
        (e k a date hh rest b z : string) (id m h : Z) :
  Forall (fun w => occurrences "," w = 0%nat)
         [e; k; a; date; hh; rest; b; z] ->
  Forall (fun w => occurrences " " w = 0%nat) [date; hh; rest] ->
  occurrences ":" hh = 0%nat ->
  PyStr.int a = Ok id ->
  PyStr.int b = Ok m ->
  PyStr.int hh = Ok h ->
  let stamp := PyStr.quoted (date ++ String " " (hh ++ String ":" rest)) in
  make_tracks_kv (join "," [e; k; a; stamp; b; z]) =
    Ok (k, [Track id stamp m z]) /\
  compute_stats_by_user [Track id stamp m z] =
    Returned (PyList (first_summary h m)).
Proof.
  intros Hc Hb Hcolon Ha Hm Hh stamp.
  repeat match goal with
         | H : Forall _ (_ :: _) |- _ => inversion H; clear H; subst
         | H : Forall _ [] |- _ => clear H
         end.
  split.
  - rewrite make_tracks_kv_join.
    + rewrite Ha, Hm. reflexivity.
    + repeat constructor; try assumption.
      apply quoted_free; [discriminate|].
      rewrite occurrences_app. cbn. rewrite occurrences_app. cbn. lia.
  - rewrite compute_cons. cbn [dtime mobile]. unfold stamp.
    rewrite quoted_shape, hour_of_time_part, Hh; try assumption;
      [reflexivity|].
    rewrite occurrences_app. cbn. lia.
Qed.

Lemma line_profile_witness :
  make_tracks_kv sample_line =
    Ok ("48"%string,
        [Track 511 (PyStr.quoted "2014-12-04 03:35:27") 1
               (PyStr.quoted "23081")]) /\
  compute_stats_by_user
    [Track 511 (PyStr.quoted "2014-12-04 03:35:27") 1 (PyStr.quoted "23081")] =
    Returned (PyList [1; 0; 0; 0; 1; 1]).
Proof.
  apply (line_profile "0" "48" "511" "2014-12-04" "03" "35:27" "1"
           (PyStr.quoted "23081") 511 1 3);
    try reflexivity; repeat constructor.
Defined.

(** X10.  The writing loop on what the routine returns.  For the profile
    of a non-empty group the six-name unpacking succeeds, the row
    written is the profile itself, and [total_hour] is 1 whatever the
    size of the group; for the empty group the profile is [None] and the
    unpacking raises [TypeError]. *)
Theorem live_row_of_profile (tracks : list track) (v : value) :
  compute_stats_by_user tracks = Returned v ->
  (tracks = [] /\ live_row v = inl TypeError_not_iterable) \/
  (tracks <> [] /\ exists row, v = PyList row /\ live_row v = inr (1, row)).
Proof.
  destruct tracks as [|t rest].
  - intros H. injection H as <-. left. split; reflexivity.
  - rewrite compute_cons.
    destruct (hour_of_day (dtime t)) as [h|e]; [|discriminate].
    intros H. injection H as <-. right. split; [discriminate|].
    destruct (first_summary_total h (mobile t))
      as (u & mo & af & ev & ni & Hshape & Hsum).
    exists (first_summary h (mobile t)). split; [reflexivity|].
    rewrite Hshape. cbn [live_row]. rewrite Hsum. reflexivity.
Qed.

Lemma live_row_of_profile_witness :
  (example_group = [] /\
   live_row (PyList [1; 0; 0; 0; 1; 0]) = inl TypeError_not_iterable) \/
  (example_group <> [] /\
   exists row,
     PyList [1; 0; 0; 0; 1; 0] = PyList row /\
     live_row (PyList [1; 0; 0; 0; 1; 0]) = inr (1, row)).
Proof.
  apply (live_row_of_profile example_group (PyList [1; 0; 0; 0; 1; 0])).
  reflexivity.
Defined.

(** X11.  The words of the word count.  A line with [n] blanks gives
    [n + 1] words, so the pairs emitted for a text number its lines
    plus its blanks, the empty line giving the empty word; no word
    holds a blank, and every pair carries the count 1. *)
Theorem word_pairs_census (lines : list string) :
  List.length (word_pairs lines) =
    (List.length lines + list_sum (map (occurrences " ") lines))%nat /\
  Forall (fun p => occurrences " " (fst p) = 0%nat /\ snd p = 1)
         (word_pairs lines).
Proof.
  unfold word_pairs, words. split.
  - rewrite length_map. unfold list_sum.
    induction lines as [|l lines IH]; [reflexivity|].
    cbn [flat_map map fold_right List.length].
    rewrite length_app, split_length, IH. lia.
  - apply Forall_map. cbn [fst snd].
    induction lines as [|l lines IH]; [constructor|].
    cbn [flat_map]. apply Forall_app. split; [|assumption].
    eapply Forall_impl; [|apply (split_pieces_free " " l)].
    cbn. intros w Hw. split; [assumption | reflexivity].
Qed.

(** X12.  Splitting loses nothing: the pieces of a line, joined again
    with the separator, are the line, for the blank of the word count
    and for the comma of the track lines alike. *)
Theorem split_then_join (sep : ascii) (line : string) :
  join sep (PyStr.split sep line) = line /\
  List.length (PyStr.split sep line) = S (occurrences sep line).
Proof.
  split; [apply join_split | apply split_length].
Qed.
